(** * Herder: the consensus coordinator of stellar-core

    A shallow embedding of [src/herder/Herder.cpp] and the properties of its
    natural-language specification.

    The coordinator is single threaded: every method runs to completion on
    the event loop.  A method is modelled as a function on the record
    [Herder] of the member variables.  What a method does to its
    collaborators (the callbacks handed in by the slot machine, the slot
    machine itself, the ledger, the overlay, the error log) is appended, in
    program order, to the ghost field [effects].  The collaborators are
    opaque: what they do in turn when called is outside this development. *)

From Stdlib Require Import ZArith List Bool Lia QArith.
From stdpp Require Import base option list gmap.
Import ListNotations.

Close Scope Q_scope.
Local Open Scope Z_scope.

(** ** Machine integers *)

(** [uint64_t] arithmetic. *)
Definition wrap64 (z : Z) : Z := z mod 2 ^ 64.

(** The conversion [(int)x] of an integer: reduction to 32 bits, two's
    complement. *)
Definition to_int (z : Z) : Z := (z + 2 ^ 31) mod 2 ^ 32 - 2 ^ 31.

(** An [int] operand of a [uint64_t] comparison or sum is converted to
    [uint64_t]. *)
Definition int_to_uint64 (z : Z) : Z := z mod 2 ^ 64.

(** ** Data *)

Definition Hash := N.
Definition AccountID := N.
Definition NodeID := N.

Bind Scope N_scope with Hash AccountID NodeID.

(** Opaque XDR bytes. *)
Definition Value := list Z.

(** A clock reading ([VirtualClock::time_point]). *)
Definition time_point := Z.

(** The identity of a [std::function<void(bool)>] handed in by the slot
    machine.  Calling it is the effect [EvCallback]. *)
Definition Callback := N.
Bind Scope N_scope with Callback.

Record TransactionFrame := mkTransactionFrame {
  getFullHash : Hash;
  getSourceID : AccountID;
  getSeqNum : Z
}.

(** [TransactionFramePtr] is a [std::shared_ptr]: two pointers are equal
    when they point to the same object, whatever the objects hold. *)
Record TransactionFramePtr := mkTransactionFramePtr {
  tx_addr : N;
  tx_frame : TransactionFrame
}.

Definition ptr_eqb (p q : TransactionFramePtr) : bool :=
  (tx_addr p =? tx_addr q)%N.

Record TxSetFrame := mkTxSetFrame {
  mTransactions : list TransactionFramePtr;
  mPreviousLedgerHash : Hash
}.

Record StellarBallotValue := mkStellarBallotValue {
  txSetHash : Hash;
  closeTime : Z;
  baseFee : Z
}.

(** Of a [StellarBallot] the coordinator reads and writes [value] only. *)
Record StellarBallot := mkStellarBallot {
  sb_value : StellarBallotValue
}.

Record FBABallot := mkFBABallot {
  counter : Z;
  fb_value : Value
}.

Record FBAEnvelope := mkFBAEnvelope {
  slotIndex : Z;
  env_rest : N
}.

Record LedgerHeader := mkLedgerHeader {
  lh_hash : Hash;
  ledgerSeq : Z;
  lh_closeTime : Z
}.

Inductive AppState := BOOTING_STATE | CATCHING_UP_STATE | SYNCED_STATE.

Definition AppState_eqb (a b : AppState) : bool :=
  match a, b with
  | BOOTING_STATE, BOOTING_STATE
  | CATCHING_UP_STATE, CATCHING_UP_STATE
  | SYNCED_STATE, SYNCED_STATE => true
  | _, _ => false
  end.

(** What the coordinator reads from [mApp] during one call: the clock, the
    configuration, the ledger. *)
Record Application := mkApplication {
  clock_now : time_point;
  getState : AppState;
  DESIRED_BASE_FEE : Z;
  START_NEW_NETWORK : bool;
  getTxFee : Z;
  getLastClosedLedgerHeader : LedgerHeader;
  tx_loadAccount : TransactionFramePtr -> bool;
  account_getSeqNum : TransactionFramePtr -> Z;
  account_getBalance : TransactionFramePtr -> Z;
  tx_checkValid : TransactionFramePtr -> bool;
  txSet_checkValid : TxSetFrame -> bool
}.

(** The constants of [Herder.h] and the library functions the coordinator
    calls; their declarations are not part of the sources at hand, so they
    are taken as parameters.  [xdr_from_opaque] is [None] when the decoder
    throws; [xdr_failed_leaves] is what the ballot being decoded into holds
    at that point. *)
Record Externals := mkExternals {
  MAX_TIME_SLIP_SECONDS : Z;
  MAX_FBA_TIMEOUT_SECONDS : Z;
  LEDGER_VALIDITY_BRACKET : Z;
  EXP_LEDGER_TIMESPAN_SECONDS : Z;
  pointToTimeT : time_point -> Z;
  xdr_from_opaque : Value -> option StellarBallot;
  xdr_failed_leaves : Value -> StellarBallot;
  xdr_to_opaque : StellarBallot -> Value;
  getContentsHash : TxSetFrame -> Hash
}.

Inductive ErrorLog :=
| Externalized_StellarBallot_malformed
| Externalized_txSet_not_found.

(** The calls the coordinator makes on its collaborators. *)
Inductive Event :=
| EvCallback (cb : Callback) (result : bool)
| EvReceiveEnvelope (envelope : FBAEnvelope) (cb : Callback)
| EvPrepareValue (slot : Z) (v : Value) (bumpCounter : bool)
| EvExternalizeValue (txSet : TxSetFrame)
| EvBroadcastTx (tx : TransactionFramePtr)
| EvRequestTxSet (h : Hash)
| EvLogError (what : ErrorLog).

(** The closures [validate] of [validateValue] and [validateBallot], with
    what they capture. *)
Inductive Validate :=
| ValidateValue (cb : Callback) (b : StellarBallot) (slot : Z) (nodeID : NodeID)
| ValidateBallot (cb : Callback) (b : StellarBallot) (slot : Z) (nodeID : NodeID).

(** ** The artifact fetcher *)

Module TxSetFetcher.

(** Modelled from the spec: the class [TxSetFetcher] is not among the
    sources.  Section 4.1 of the specification: a content-addressed cache
    with the fetches that are outstanding. *)
Record t := mk {
  cached : gmap Hash TxSetFrame;
  outstanding : gset Hash
}.

Definition empty : t := mk ∅ ∅.

(** Modelled from the spec: "returns a cached artifact if present;
    otherwise, if askNetwork, issues a broadcast request to the overlay and
    returns absent". *)
Definition fetchItem (h : Hash) (askNetwork : bool) (f : t)
  : option TxSetFrame * t * list Event :=
  match cached f !! h with
  | Some item => (Some item, f, [])
  | None =>
      if askNetwork
      then (None, mk (cached f) ({[h]} ∪ outstanding f), [EvRequestTxSet h])
      else (None, f, [])
  end.

(** Modelled from the spec: "stores the artifact. Returns true iff at least
    one fetch for this hash was outstanding".  The fetch ends with the
    arrival. *)
Definition recvItem (h : Hash) (item : TxSetFrame) (f : t) : bool * t :=
  (bool_decide (h ∈ outstanding f),
   mk (<[h := item]> (cached f)) (outstanding f ∖ {[h]})).

(** Modelled from the spec: stops every outstanding fetch; what is cached
    stays. *)
Definition stopFetchingAll (f : t) : t := mk (cached f) ∅.

(** Modelled from the spec: wipes the buffer. *)
Definition clear (f : t) : t := empty.

End TxSetFetcher.

(** ** The coordinator's state *)

(** An armed [mBumpTimer]: the handler [expireBallot] bound to its slot and
    ballot, and the delay in seconds. *)
Record BumpWait := mkBumpWait {
  bw_slot : Z;
  bw_ballot : FBABallot;
  bw_seconds : Z
}.

Record Herder := mkHerder {
  mReceivedTransactions : list (list TransactionFramePtr);
  mTxSetFetcher : TxSetFetcher.t * TxSetFetcher.t;
  mCurrentTxSetFetcher : Z;
  mTxSetFetches : gmap Hash (list Validate);
  mFutureEnvelopes : gmap Z (list (FBAEnvelope * Callback));
  mLedgersToWaitToParticipate : Z;
  mLastClosedLedger : LedgerHeader;
  mLastTrigger : time_point;
  mLocalValue : Value;
  mBumpTimer : option BumpWait;
  effects : list Event
}.

Definition set_mReceivedTransactions (v : list (list TransactionFramePtr)) (s : Herder) : Herder :=
  mkHerder v (mTxSetFetcher s) (mCurrentTxSetFetcher s) (mTxSetFetches s)
    (mFutureEnvelopes s) (mLedgersToWaitToParticipate s) (mLastClosedLedger s)
    (mLastTrigger s) (mLocalValue s) (mBumpTimer s) (effects s).

Definition set_mTxSetFetcher (v : TxSetFetcher.t * TxSetFetcher.t) (s : Herder) : Herder :=
  mkHerder (mReceivedTransactions s) v (mCurrentTxSetFetcher s) (mTxSetFetches s)
    (mFutureEnvelopes s) (mLedgersToWaitToParticipate s) (mLastClosedLedger s)
    (mLastTrigger s) (mLocalValue s) (mBumpTimer s) (effects s).

Definition set_mCurrentTxSetFetcher (v : Z) (s : Herder) : Herder :=
  mkHerder (mReceivedTransactions s) (mTxSetFetcher s) v (mTxSetFetches s)
    (mFutureEnvelopes s) (mLedgersToWaitToParticipate s) (mLastClosedLedger s)
    (mLastTrigger s) (mLocalValue s) (mBumpTimer s) (effects s).

Definition set_mTxSetFetches (v : gmap Hash (list Validate)) (s : Herder) : Herder :=
  mkHerder (mReceivedTransactions s) (mTxSetFetcher s) (mCurrentTxSetFetcher s) v
    (mFutureEnvelopes s) (mLedgersToWaitToParticipate s) (mLastClosedLedger s)
    (mLastTrigger s) (mLocalValue s) (mBumpTimer s) (effects s).

Definition set_mFutureEnvelopes (v : gmap Z (list (FBAEnvelope * Callback))) (s : Herder) : Herder :=
  mkHerder (mReceivedTransactions s) (mTxSetFetcher s) (mCurrentTxSetFetcher s)
    (mTxSetFetches s) v (mLedgersToWaitToParticipate s) (mLastClosedLedger s)
    (mLastTrigger s) (mLocalValue s) (mBumpTimer s) (effects s).

Definition set_mLedgersToWaitToParticipate (v : Z) (s : Herder) : Herder :=
  mkHerder (mReceivedTransactions s) (mTxSetFetcher s) (mCurrentTxSetFetcher s)
    (mTxSetFetches s) (mFutureEnvelopes s) v (mLastClosedLedger s)
    (mLastTrigger s) (mLocalValue s) (mBumpTimer s) (effects s).

Definition set_mLastClosedLedger (v : LedgerHeader) (s : Herder) : Herder :=
  mkHerder (mReceivedTransactions s) (mTxSetFetcher s) (mCurrentTxSetFetcher s)
    (mTxSetFetches s) (mFutureEnvelopes s) (mLedgersToWaitToParticipate s) v
    (mLastTrigger s) (mLocalValue s) (mBumpTimer s) (effects s).

Definition set_mLastTrigger (v : time_point) (s : Herder) : Herder :=
  mkHerder (mReceivedTransactions s) (mTxSetFetcher s) (mCurrentTxSetFetcher s)
    (mTxSetFetches s) (mFutureEnvelopes s) (mLedgersToWaitToParticipate s)
    (mLastClosedLedger s) v (mLocalValue s) (mBumpTimer s) (effects s).

Definition set_mLocalValue (v : Value) (s : Herder) : Herder :=
  mkHerder (mReceivedTransactions s) (mTxSetFetcher s) (mCurrentTxSetFetcher s)
    (mTxSetFetches s) (mFutureEnvelopes s) (mLedgersToWaitToParticipate s)
    (mLastClosedLedger s) (mLastTrigger s) v (mBumpTimer s) (effects s).

Definition set_mBumpTimer (v : option BumpWait) (s : Herder) : Herder :=
  mkHerder (mReceivedTransactions s) (mTxSetFetcher s) (mCurrentTxSetFetcher s)
    (mTxSetFetches s) (mFutureEnvelopes s) (mLedgersToWaitToParticipate s)
    (mLastClosedLedger s) (mLastTrigger s) (mLocalValue s) v (effects s).

(** One more call on a collaborator. *)
Definition emit (es : list Event) (s : Herder) : Herder :=
  mkHerder (mReceivedTransactions s) (mTxSetFetcher s) (mCurrentTxSetFetcher s)
    (mTxSetFetches s) (mFutureEnvelopes s) (mLedgersToWaitToParticipate s)
    (mLastClosedLedger s) (mLastTrigger s) (mLocalValue s) (mBumpTimer s)
    (effects s ++ es).

(** [cb(result)]. *)
Definition call (cb : Callback) (result : bool) (s : Herder) : Herder :=
  emit [EvCallback cb result] s.

(** [mTxSetFetcher[i]]; the array has the two indices 0 and 1. *)
Definition fetcher_at (i : Z) (p : TxSetFetcher.t * TxSetFetcher.t) : TxSetFetcher.t :=
  if i =? 0 then fst p else snd p.

Definition set_fetcher_at (i : Z) (f : TxSetFetcher.t) (p : TxSetFetcher.t * TxSetFetcher.t)
  : TxSetFetcher.t * TxSetFetcher.t :=
  if i =? 0 then (f, snd p) else (fst p, f).

(** ** The coordinator's methods *)

Section Herder.

Variable X : Externals.

(** The constructor: four empty buckets of received transactions, two empty
    fetchers with the first one current, the sync gate at 3.  (The
    quorum-set fetcher, which no property below involves, is left out.) *)
Definition Herder_init (app : Application) : Herder :=
  mkHerder [[]; []; []; []] (TxSetFetcher.empty, TxSetFetcher.empty) 0 ∅ ∅ 3
    (mkLedgerHeader 0%N 0 0) (clock_now app) [] None [].

(** *** Fetching and receiving transaction sets *)

Definition fetchTxSet (h : Hash) (askNetwork : bool) (s : Herder)
  : option TxSetFrame * Herder :=
  let i := mCurrentTxSetFetcher s in
  let '(r, f, evs) := TxSetFetcher.fetchItem h askNetwork (fetcher_at i (mTxSetFetcher s)) in
  (r, emit evs (set_mTxSetFetcher (set_fetcher_at i f (mTxSetFetcher s)) s)).

(** The first loop of [recvTransaction] over one bucket: [None] when a
    transaction with the hash of [tx] is met, otherwise the count of the
    transactions of the same source. *)
Fixpoint recvTransaction_scan (tx : TransactionFramePtr)
    (lst : list TransactionFramePtr) (numOthers : Z) : option Z :=
  match lst with
  | [] => Some numOthers
  | oldTX :: rest =>
      if (getFullHash (tx_frame tx) =? getFullHash (tx_frame oldTX))%N then None
      else recvTransaction_scan tx rest
             (if (getSourceID (tx_frame oldTX) =? getSourceID (tx_frame tx))%N
              then numOthers + 1 else numOthers)
  end.

Fixpoint recvTransaction_scan_all (tx : TransactionFramePtr)
    (buckets : list (list TransactionFramePtr)) (numOthers : Z) : option Z :=
  match buckets with
  | [] => Some numOthers
  | lst :: rest =>
      match recvTransaction_scan tx lst numOthers with
      | None => None
      | Some n => recvTransaction_scan_all tx rest n
      end
  end.

(** [mReceivedTransactions[0].push_back(tx)]; the constructor makes four
    buckets and nothing resizes the vector. *)
Definition push_back_bucket0 (tx : TransactionFramePtr)
    (buckets : list (list TransactionFramePtr)) : list (list TransactionFramePtr) :=
  match buckets with
  | [] => []
  | b0 :: rest => (b0 ++ [tx]) :: rest
  end.

Definition recvTransaction (app : Application) (tx : TransactionFramePtr) (s : Herder)
  : bool * Herder :=
  match recvTransaction_scan_all tx (mReceivedTransactions s) 0 with
  | None => (false, s)
  | Some numOthers =>
      if negb (tx_loadAccount app tx) then (false, s)
      else if getSeqNum (tx_frame tx) <? account_getSeqNum app tx + 1 then (false, s)
      else if account_getBalance app tx <? (numOthers + 1) * getTxFee app then (false, s)
      else if negb (tx_checkValid app tx) then (false, s)
      else (true, set_mReceivedTransactions
                    (push_back_bucket0 tx (mReceivedTransactions s)) s)
  end.

(** The loop of the closure of [validateBallot]: is some transaction of
    the bucket not found in the set?  [std::find] compares the shared
    pointers. *)
Fixpoint missing_received_tx (txSet : TxSetFrame) (bucket : list TransactionFramePtr) : bool :=
  match bucket with
  | [] => false
  | tx :: rest =>
      if negb (existsb (fun x => ptr_eqb x tx) (mTransactions txSet)) then true
      else missing_received_tx txSet rest
  end.

(** [mReceivedTransactions[mReceivedTransactions.size() - 1]]. *)
Definition oldest_bucket (s : Herder) : list TransactionFramePtr :=
  default [] (last (mReceivedTransactions s)).

(** Running a closure [validate(txSet)]. *)
Definition run_validate (app : Application) (txSet : TxSetFrame) (v : Validate) (s : Herder)
  : Herder :=
  match v with
  | ValidateValue cb b slot nodeID =>
      if (mLedgersToWaitToParticipate s =? 0) && negb (txSet_checkValid app txSet)
      then call cb false s
      else call cb true s
  | ValidateBallot cb b slot nodeID =>
      if missing_received_tx txSet (oldest_bucket s)
      then call cb false s
      else call cb true s
  end.

Definition recvTxSet (app : Application) (txSet : TxSetFrame) (s : Herder) : Herder :=
  let i := mCurrentTxSetFetcher s in
  let h := getContentsHash X txSet in
  let '(cares, f) := TxSetFetcher.recvItem h txSet (fetcher_at i (mTxSetFetcher s)) in
  let s := set_mTxSetFetcher (set_fetcher_at i f (mTxSetFetcher s)) s in
  if cares then
    let s := fold_left (fun s tx => snd (recvTransaction app tx s)) (mTransactions txSet) s in
    match mTxSetFetches s !! h with
    | Some validates =>
        let s := fold_left (fun s v => run_validate app txSet v s) validates s in
        set_mTxSetFetches (delete h (mTxSetFetches s)) s
    | None => s
    end
  else s.

(** [mTxSetFetches[h].push_back(validate)]. *)
Definition push_back_fetch (h : Hash) (v : Validate) (s : Herder) : Herder :=
  set_mTxSetFetches
    (<[h := default [] (mTxSetFetches s !! h) ++ [v]]> (mTxSetFetches s)) s.

(** The common tail of [validateValue] and [validateBallot]. *)
Definition fetch_then_validate (app : Application) (h : Hash) (v : Validate) (s : Herder)
  : Herder :=
  match fetchTxSet h true s with
  | (None, s) => push_back_fetch h v s
  | (Some txSet, s) => run_validate app txSet v s
  end.

(** *** Validation of values *)

Definition validateValue (app : Application) (slot : Z) (nodeID : NodeID)
    (value : Value) (cb : Callback) (s : Herder) : Herder :=
  match xdr_from_opaque X value with
  | None => call cb false s
  | Some b =>
      let rest :=
        fetch_then_validate app (txSetHash (sb_value b)) (ValidateValue cb b slot nodeID) s in
      if mLedgersToWaitToParticipate s =? 0 then
        if negb (wrap64 (ledgerSeq (mLastClosedLedger s) + 1) =? slot) then call cb false s
        else if closeTime (sb_value b) <=? lh_closeTime (mLastClosedLedger s)
        then call cb false s
        else rest
      else rest
  end.

(** *** Validation of ballots *)

(** [(int)pow(2.0, i)]: exact while the power fits an [int]; from [i = 31]
    on the conversion is undefined. *)
Definition int_pow2 (i : Z) : option Z :=
  if i <? 31 then Some (2 ^ i) else None.

(** The loop over [i], [n] rounds to go; [None] is undefined behaviour. *)
Fixpoint sumTimeouts_from (i : Z) (n : nat) (sumTimeouts : Z) : option Z :=
  match n with
  | O => Some sumTimeouts
  | S n' =>
      match int_pow2 i with
      | None => None
      | Some p =>
          sumTimeouts_from (i + 1) n'
            (wrap64 (sumTimeouts + int_to_uint64 (Z.min (MAX_FBA_TIMEOUT_SECONDS X) p)))
      end
  end.

Definition sumTimeouts (ballot_counter : Z) : option Z :=
  sumTimeouts_from 0 (Z.to_nat ballot_counter) 0.

(** [timeNow + MAX_TIME_SLIP_SECONDS < (int)(lastTrigger + sumTimeouts)]:
    the right-hand side is cut to an [int] and then widened again for the
    comparison with the [uint64_t] on the left. *)
Definition counter_guard_rejects (timeNow lastTrigger sum : Z) : bool :=
  wrap64 (timeNow + int_to_uint64 (MAX_TIME_SLIP_SECONDS X))
    <? int_to_uint64 (to_int (wrap64 (lastTrigger + sum))).

(** [x < d * .5] in [double]: the operands are integers of 32 bits, so the
    product and the comparison are exact. *)
Definition lt_half (x d : Z) : bool :=
  negb (Qle_bool (inject_Z d * (1 # 2))%Q (inject_Z x)).

(** Both base-fee tests: does one of them reject?  ([DESIRED_BASE_FEE * 2]
    is taken not to overflow the type [Config.h] gives the constant.) *)
Definition baseFee_rejects (app : Application) (fee : Z) : bool :=
  if lt_half fee (DESIRED_BASE_FEE app) then true
  else if fee >? DESIRED_BASE_FEE app * 2 then true
  else false.

(** The two checks of [validateBallot] on times, the close time and the
    ballot counter: [Some false] when one of them calls [cb(false)],
    [Some true] when both pass. *)
Definition validateBallot_times (app : Application) (ballot : FBABallot)
    (b : StellarBallot) (s : Herder) : option bool :=
  let timeNow := wrap64 (pointToTimeT X (clock_now app)) in
  if closeTime (sb_value b) >? wrap64 (timeNow + int_to_uint64 (MAX_TIME_SLIP_SECONDS X))
  then Some false
  else
    let lastTrigger := wrap64 (pointToTimeT X (mLastTrigger s)) in
    match sumTimeouts (counter ballot) with
    | None => None
    | Some sum =>
        if counter_guard_rejects timeNow lastTrigger sum then Some false else Some true
    end.

(** All the checks of [validateBallot] that precede the fetch. *)
Definition validateBallot_local (app : Application) (ballot : FBABallot)
    (b : StellarBallot) (s : Herder) : option bool :=
  match validateBallot_times app ballot b s with
  | None => None
  | Some false => Some false
  | Some true =>
      if baseFee_rejects app (baseFee (sb_value b)) then Some false else Some true
  end.

Definition validateBallot (app : Application) (slot : Z) (nodeID : NodeID)
    (ballot : FBABallot) (cb : Callback) (s : Herder) : option Herder :=
  match xdr_from_opaque X (fb_value ballot) with
  | None => Some (call cb false s)
  | Some b =>
      match validateBallot_local app ballot b s with
      | None => None
      | Some false => Some (call cb false s)
      | Some true =>
          Some (fetch_then_validate app (txSetHash (sb_value b))
                  (ValidateBallot cb b slot nodeID) s)
      end
  end.

(** *** Externalization *)

(** [list.erase(iter)] at the first transaction with the hash [h];
    [None] when the loop over the bucket ends without a match. *)
Fixpoint erase_first (h : Hash) (lst : list TransactionFramePtr)
  : option (list TransactionFramePtr) :=
  match lst with
  | [] => None
  | x :: rest =>
      if (getFullHash (tx_frame x) =? h)%N then Some rest
      else option_map (cons x) (erase_first h rest)
  end.

(** The outer loop of [removeReceivedTx]: the bucket the transaction was
    erased from, as it is at the [return]. *)
Fixpoint removeReceivedTx_loop (h : Hash) (buckets : list (list TransactionFramePtr))
  : option (list TransactionFramePtr) :=
  match buckets with
  | [] => None
  | lst :: rest =>
      match erase_first h lst with
      | Some erased => Some erased
      | None => removeReceivedTx_loop h rest
      end
  end.

(** [for (auto list : mReceivedTransactions)] binds each bucket by value:
    the loop variable is a copy local to the loop body, the [erase] acts on
    that copy, and the copy is dropped at the [return]. *)
Definition removeReceivedTx (dropTx : TransactionFramePtr) (s : Herder) : Herder :=
  match removeReceivedTx_loop (getFullHash (tx_frame dropTx)) (mReceivedTransactions s) with
  | Some _local_copy => s
  | None => s
  end.

(** The loop [for (n = size - 1; n > 0; n--)] that moves bucket [n-1] to
    the end of bucket [n] and empties it. *)
Fixpoint move_up (n : nat) (buckets : list (list TransactionFramePtr))
  : list (list TransactionFramePtr) :=
  match n with
  | O => buckets
  | S m =>
      let moved := default [] (buckets !! S m) ++ default [] (buckets !! m) in
      move_up m (<[m := []]> (<[S m := moved]> buckets))
  end.

(** [mCurrentTxSetFetcher ? 0 : 1]. *)
Definition other_fetcher (i : Z) : Z := if i =? 0 then 1 else 0.

(** The branch of [valueExternalized] taken when the set is there.
    [None]: the [assert] on the number of buckets fails. *)
Definition valueExternalized_found (externalizedSet : TxSetFrame) (s : Herder)
  : option Herder :=
  let cur := mCurrentTxSetFetcher s in
  let s := set_mTxSetFetcher
             (set_fetcher_at cur
                (TxSetFetcher.stopFetchingAll (fetcher_at cur (mTxSetFetcher s)))
                (mTxSetFetcher s)) s in
  let s := set_mCurrentTxSetFetcher (other_fetcher cur) s in
  let cur := mCurrentTxSetFetcher s in
  let s := set_mTxSetFetcher
             (set_fetcher_at cur
                (TxSetFetcher.clear (fetcher_at cur (mTxSetFetcher s)))
                (mTxSetFetcher s)) s in
  let s := emit [EvExternalizeValue externalizedSet] s in
  let s := fold_left (fun s tx => removeReceivedTx tx s) (mTransactions externalizedSet) s in
  if (length (mReceivedTransactions s) <? 2)%nat then None
  else
    let s := emit (map EvBroadcastTx (default [] (mReceivedTransactions s !! 1%nat))) s in
    Some (set_mReceivedTransactions
            (move_up (length (mReceivedTransactions s) - 1) (mReceivedTransactions s)) s).

Definition valueExternalized (slot : Z) (value : Value) (s : Herder) : option Herder :=
  let s := set_mBumpTimer None s in
  let '(b, s) :=
    match xdr_from_opaque X value with
    | Some b => (b, s)
    | None => (xdr_failed_leaves X value,
               emit [EvLogError Externalized_StellarBallot_malformed] s)
    end in
  match fetchTxSet (txSetHash (sb_value b)) false s with
  | (Some externalizedSet, s) => valueExternalized_found externalizedSet s
  | (None, s) => Some (emit [EvLogError Externalized_txSet_not_found] s)
  end.

(** *** Envelopes *)

(** [FBA::receiveEnvelope(envelope, cb)]: the envelope goes to the slot
    machine. *)
Definition receiveEnvelope (envelope : FBAEnvelope) (cb : Callback) (s : Herder) : Herder :=
  emit [EvReceiveEnvelope envelope cb] s.

(** [mFutureEnvelopes[slot].push_back(make_pair(envelope, cb))]. *)
Definition push_back_future (envelope : FBAEnvelope) (cb : Callback) (s : Herder) : Herder :=
  set_mFutureEnvelopes
    (<[slotIndex envelope :=
         default [] (mFutureEnvelopes s !! slotIndex envelope) ++ [(envelope, cb)]]>
       (mFutureEnvelopes s)) s.

Definition recvFBAEnvelope (envelope : FBAEnvelope) (cb : Callback) (s : Herder) : Herder :=
  if mLedgersToWaitToParticipate s =? 0 then
    let seq := ledgerSeq (mLastClosedLedger s) in
    let minLedgerSeq :=
      if to_int seq - LEDGER_VALIDITY_BRACKET X <? 0 then 0
      else wrap64 (seq - LEDGER_VALIDITY_BRACKET X) in
    let maxLedgerSeq := wrap64 (seq + LEDGER_VALIDITY_BRACKET X) in
    if (slotIndex envelope >? maxLedgerSeq) || (slotIndex envelope <? minLedgerSeq)
    then s
    else
      let s := if slotIndex envelope >? wrap64 (seq + 1)
               then push_back_future envelope cb s else s in
      receiveEnvelope envelope cb s
  else receiveEnvelope envelope cb s.

(** *** Ledger close *)


(** The statements below that [return], which never run, as far as they
    touch the last closed ledger and the sync gate (the arming of the
    trigger timer is left out). *)
Definition ledgerClosed_below_return (app : Application) (ledger : LedgerHeader)
    (s : Herder) : Herder :=
  let s := set_mLastClosedLedger ledger s in
  if (mLedgersToWaitToParticipate s >? 0) && negb (AppState_eqb (getState app) SYNCED_STATE)
  then set_mLedgersToWaitToParticipate (mLedgersToWaitToParticipate s - 1) s
  else s.

(** *** Proposing *)

(** [None]: the [assert(!error)] fails. *)
Definition triggerNextLedger (app : Application) (error : bool) (s : Herder)
  : option Herder :=
  if error then None
  else
    let s := set_mLastTrigger (clock_now app) s in
    let proposedSet :=
      mkTxSetFrame (concat (mReceivedTransactions s)) (lh_hash (mLastClosedLedger s)) in
    let '(_, s) := fetchTxSet (getContentsHash X proposedSet) true s in
    let s := recvTxSet app proposedSet s in
    let slot := wrap64 (ledgerSeq (mLastClosedLedger s) + 1) in
    let nextCloseTime := wrap64 (pointToTimeT X (mLastTrigger s)) in
    let nextCloseTime :=
      if nextCloseTime <=? lh_closeTime (mLastClosedLedger s)
      then wrap64 (lh_closeTime (mLastClosedLedger s) + 1)
      else nextCloseTime in
    let b := mkStellarBallot
               (mkStellarBallotValue (getContentsHash X proposedSet) nextCloseTime
                  (DESIRED_BASE_FEE app)) in
    let s := set_mLocalValue (xdr_to_opaque X b) s in
    let s := emit [EvPrepareValue slot (mLocalValue s) false] s in
    let s := fold_left (fun s p => recvFBAEnvelope (fst p) (snd p) s)
               (default [] (mFutureEnvelopes s !! slot)) s in
    Some (set_mFutureEnvelopes (delete slot (mFutureEnvelopes s)) s).

Definition bootstrap (app : Application) (s : Herder) : option Herder :=
  if START_NEW_NETWORK app then
    let s := set_mLastClosedLedger (getLastClosedLedgerHeader app) s in
    let s := set_mLedgersToWaitToParticipate 0 s in
    triggerNextLedger app false s
  else None.

(** *** The bump timer *)

(** [None]: the [assert] on the slot fails, or the delay
    [(int)pow(2.0, ballot.counter)] is undefined. *)
Definition ballotDidHearFromQuorum (slot : Z) (ballot : FBABallot) (s : Herder)
  : option Herder :=
  if mLedgersToWaitToParticipate s >? 0 then Some s
  else if negb (slot =? wrap64 (ledgerSeq (mLastClosedLedger s) + 1)) then None
  else
    match int_pow2 (counter ballot) with
    | None => None
    | Some seconds => Some (set_mBumpTimer (Some (mkBumpWait slot ballot seconds)) s)
    end.

Definition expireBallot (operation_aborted : bool) (slot : Z) (ballot : FBABallot)
    (s : Herder) : option Herder :=
  if operation_aborted then Some s
  else if negb (slot =? wrap64 (ledgerSeq (mLastClosedLedger s) + 1)) then None
  else Some (emit [EvPrepareValue slot (mLocalValue s) true] s).

End Herder.

(** ** The sum of timeouts of the specification *)

(** [Sigma M k] is the sum over [i] from [0] to [k-1] of [min(M, 2^i)]. *)
Fixpoint Sigma_nat (M : Z) (k : nat) : Z :=
  match k with
  | O => 0
  | S k' => Sigma_nat M k' + Z.min M (2 ^ Z.of_nat k')
  end.

Definition Sigma (M : Z) (k : Z) : Z := Sigma_nat M (Z.to_nat k).

(** ** A concrete node, to run the methods on *)

Module Sample.

(** Sixty seconds of slip, timeouts capped at thirty seconds, a bracket of
    ten ledgers; clock readings in seconds; a ballot is written as its
    three numbers. *)
Definition X : Externals :=
  mkExternals 60 30 10 5
    (fun tp => tp)
    (fun v => match v with
              | [h; c; f] => Some (mkStellarBallot (mkStellarBallotValue (Z.to_N h) c f))
              | _ => None
              end)
    (fun v => mkStellarBallot (mkStellarBallotValue 0%N 0 0))
    (fun b => [Z.of_N (txSetHash (sb_value b)); closeTime (sb_value b); baseFee (sb_value b)])
    (fun T => (fold_right (fun tx acc => getFullHash (tx_frame tx) + acc) 0
                 (mTransactions T) + 1000 * mPreviousLedgerHash T)%N).

(** The application at clock reading [now], in state [st], whose ledger
    reports [lcl] as last closed; the desired base fee is 10. *)
Definition app_at (lcl : LedgerHeader) (now : Z) (st : AppState) : Application :=
  mkApplication now st 10 true 10 lcl
    (fun _ => true) (fun _ => 0) (fun _ => 1000) (fun _ => true) (fun _ => true).

Definition app (now : Z) (st : AppState) : Application :=
  app_at (mkLedgerHeader 7%N 0 0) now st.

Definition tx (addr : N) (h : Hash) : TransactionFramePtr :=
  mkTransactionFramePtr addr (mkTransactionFrame h 1%N 1).

(** A participating node whose last closed ledger is number [seq], closed
    at time [t], with the received transactions [buckets]. *)
Definition node (seq t : Z) (buckets : list (list TransactionFramePtr)) : Herder :=
  mkHerder buckets (TxSetFetcher.empty, TxSetFetcher.empty) 0 ∅ ∅ 0
    (mkLedgerHeader 7%N seq t) t [] None [].

(** The node [s] with the set [T] in the cache of its first fetcher. *)
Definition caching (T : TxSetFrame) (s : Herder) : Herder :=
  set_mTxSetFetcher
    (TxSetFetcher.mk {[getContentsHash X T := T]} ∅, TxSetFetcher.empty) s.

End Sample.

(** ** Notions used in the statements *)


(** The set is in the cache of the fetcher that is current. *)
Definition cached_TxSet (s : Herder) (h : Hash) : option TxSetFrame :=
  TxSetFetcher.cached (fetcher_at (mCurrentTxSetFetcher s) (mTxSetFetcher s)) !! h.

(** The callback a closure was made with, and the answer it gives for the
    set [T] in the state [s]. *)
Definition Validate_cb (v : Validate) : Callback :=
  match v with
  | ValidateValue cb _ _ _ => cb
  | ValidateBallot cb _ _ _ => cb
  end.

Definition Validate_result (app : Application) (T : TxSetFrame) (s : Herder) (v : Validate)
  : bool :=
  match v with
  | ValidateValue _ _ _ _ =>
      negb ((mLedgersToWaitToParticipate s =? 0) && negb (txSet_checkValid app T))
  | ValidateBallot _ _ _ _ => negb (missing_received_tx T (oldest_bucket s))
  end.

Definition is_EvPrepareValue (e : Event) : bool :=
  match e with EvPrepareValue _ _ _ => true | _ => false end.

Definition is_EvCallback (e : Event) : bool :=
  match e with EvCallback _ _ => true | _ => false end.

Definition is_EvReceiveEnvelope (e : Event) : bool :=
  match e with EvReceiveEnvelope _ _ => true | _ => false end.


(** * Properties *)

(** ** Bookkeeping on the state record *)

Lemma Herder_eta (s : Herder) :
  mkHerder (mReceivedTransactions s) (mTxSetFetcher s) (mCurrentTxSetFetcher s)
    (mTxSetFetches s) (mFutureEnvelopes s) (mLedgersToWaitToParticipate s)
    (mLastClosedLedger s) (mLastTrigger s) (mLocalValue s) (mBumpTimer s) (effects s) = s.
Proof. destruct s; reflexivity. Qed.

(** Both sides of an equation between states, field by field. *)
Ltac herder_fields :=
  unfold call, emit, set_mReceivedTransactions, set_mTxSetFetcher, set_mCurrentTxSetFetcher,
    set_mTxSetFetches, set_mFutureEnvelopes, set_mLedgersToWaitToParticipate,
    set_mLastClosedLedger, set_mLastTrigger, set_mLocalValue, set_mBumpTimer;
  simpl.

Lemma emit_nil (s : Herder) : emit [] s = s.
Proof. unfold emit. rewrite app_nil_r. apply Herder_eta. Qed.

Lemma emit_emit (es1 es2 : list Event) (s : Herder) :
  emit es2 (emit es1 s) = emit (es1 ++ es2) s.
Proof. unfold emit; simpl. rewrite app_assoc. reflexivity. Qed.

Lemma set_fetcher_at_same (i : Z) (p : TxSetFetcher.t * TxSetFetcher.t) :
  set_fetcher_at i (fetcher_at i p) p = p.
Proof. unfold set_fetcher_at, fetcher_at. destruct p, (i =? 0); reflexivity. Qed.

Lemma fetcher_at_set (i : Z) (f : TxSetFetcher.t) (p : TxSetFetcher.t * TxSetFetcher.t) :
  fetcher_at i (set_fetcher_at i f p) = f.
Proof. unfold set_fetcher_at, fetcher_at. destruct (i =? 0); reflexivity. Qed.

Lemma fetcher_at_set_other (i : Z) (f : TxSetFetcher.t) (p : TxSetFetcher.t * TxSetFetcher.t) :
  fetcher_at (other_fetcher i) (set_fetcher_at i f p) = fetcher_at (other_fetcher i) p.
Proof. unfold set_fetcher_at, fetcher_at, other_fetcher. destruct (i =? 0); reflexivity. Qed.

(** ** Receiving a transaction *)

Section RecvTransaction.

Variable app : Application.
Variable tx : TransactionFramePtr.

Lemma recvTransaction_scan_dup (bucket : list TransactionFramePtr) (n : Z) (old : TransactionFramePtr) :
  In old bucket ->
  getFullHash (tx_frame old) = getFullHash (tx_frame tx) ->
  recvTransaction_scan tx bucket n = None.
Proof.
  revert n. induction bucket as [|x rest IH]; intros n Hin Hh; simpl in *; [tauto|].
  destruct (N.eqb_spec (getFullHash (tx_frame tx)) (getFullHash (tx_frame x))) as [|Hne];
    [reflexivity|].
  destruct Hin as [->|Hin]; [congruence|]. apply IH; assumption.
Qed.

Lemma recvTransaction_scan_all_dup (buckets : list (list TransactionFramePtr)) (n : Z)
    (old : TransactionFramePtr) :
  In old (concat buckets) ->
  getFullHash (tx_frame old) = getFullHash (tx_frame tx) ->
  recvTransaction_scan_all tx buckets n = None.
Proof.
  revert n. induction buckets as [|b rest IH]; intros n Hin Hh; simpl in *; [tauto|].
  apply in_app_or in Hin. destruct Hin as [Hin|Hin].
  - rewrite (recvTransaction_scan_dup b n old Hin Hh). reflexivity.
  - destruct (recvTransaction_scan tx b n); [apply IH; assumption | reflexivity].
Qed.

Lemma recvTransaction_true (s s' : Herder) :
  recvTransaction app tx s = (true, s') ->
  s' = set_mReceivedTransactions (push_back_bucket0 tx (mReceivedTransactions s)) s.
Proof.
  unfold recvTransaction.
  destruct (recvTransaction_scan_all tx (mReceivedTransactions s) 0); [|discriminate].
  destruct (negb (tx_loadAccount app tx)); [discriminate|].
  destruct (getSeqNum (tx_frame tx) <? account_getSeqNum app tx + 1); [discriminate|].
  destruct (account_getBalance app tx <? (z + 1) * getTxFee app); [discriminate|].
  destruct (negb (tx_checkValid app tx)); [discriminate|].
  intros H. injection H as <-. reflexivity.
Qed.

(** Whatever it answers, [recvTransaction] touches the buckets only. *)
Lemma recvTransaction_frame (s : Herder) :
  snd (recvTransaction app tx s)
  = set_mReceivedTransactions (mReceivedTransactions (snd (recvTransaction app tx s))) s.
Proof.
  destruct (recvTransaction app tx s) as [[|] s'] eqn:E; simpl.
  - apply recvTransaction_true in E. subst s'. reflexivity.
  - unfold recvTransaction in E.
    repeat match type of E with
           | context [match ?c with _ => _ end] => destruct c
           end; try discriminate; injection E as <-;
      unfold set_mReceivedTransactions; symmetry; apply Herder_eta.
Qed.

End RecvTransaction.

(** C10.  A transaction whose full hash is the full hash of a transaction in
    some bucket of received transactions is refused and nothing changes;
    and when [recvTransaction] answers [true], the transaction is at the end
    of bucket 0 and every other bucket, and the rest of the state, is as
    before. *)
Theorem recvTransaction_duplicate_or_appended
    (app : Application) (tx : TransactionFramePtr) (s : Herder) :
  (forall old, In old (concat (mReceivedTransactions s)) ->
     getFullHash (tx_frame old) = getFullHash (tx_frame tx) ->
     recvTransaction app tx s = (false, s))
  /\ (forall s', recvTransaction app tx s = (true, s') ->
        (forall b0 rest, mReceivedTransactions s = b0 :: rest ->
           mReceivedTransactions s' = (b0 ++ [tx]) :: rest)
        /\ s' = set_mReceivedTransactions (mReceivedTransactions s') s).
Proof.
  split.
  - intros old Hin Hh. unfold recvTransaction.
    rewrite (recvTransaction_scan_all_dup tx _ 0 old Hin Hh). reflexivity.
  - intros s' H. apply recvTransaction_true in H. subst s'. split.
    + intros b0 rest E. simpl. rewrite E. reflexivity.
    + reflexivity.
Qed.

(** A node with a transaction of hash 40 in bucket 2: a second object with
    that hash is refused, a transaction with a new hash lands in bucket 0. *)
Lemma recvTransaction_duplicate_or_appended_witness :
  let s := Sample.node 10 100 [[Sample.tx 1 30]; []; [Sample.tx 2 40]; []] in
  recvTransaction (Sample.app 100 SYNCED_STATE) (Sample.tx 3 40) s = (false, s)
  /\ mReceivedTransactions
       (snd (recvTransaction (Sample.app 100 SYNCED_STATE) (Sample.tx 4 50) s))
     = [[Sample.tx 1 30; Sample.tx 4 50]; []; [Sample.tx 2 40]; []].
Proof.
  intros s. split.
  - apply (proj1 (recvTransaction_duplicate_or_appended
                    (Sample.app 100 SYNCED_STATE) (Sample.tx 3 40) s) (Sample.tx 2 40)).
    + simpl. right. left. reflexivity.
    + reflexivity.
  - apply (proj1 (proj2 (recvTransaction_duplicate_or_appended
                    (Sample.app 100 SYNCED_STATE) (Sample.tx 4 50) s) _
                    (surjective_pairing _)) [Sample.tx 1 30] [[]; [Sample.tx 2 40]; []]).
    reflexivity.
Defined.

(** ** Validation of values *)

Lemma wrap64_small (z : Z) : 0 <= z < 2 ^ 64 -> wrap64 z = z.
Proof. intros H. unfold wrap64. apply Z.mod_small. exact H. Qed.

(** C4.  [validateValue] calls [cb(false)] when the value does not decode;
    on a node that participates (the sync gate at 0) it calls [cb(false)]
    when the slot is not the one after the last closed ledger or the close
    time is not after that of the last closed ledger; while the sync gate is
    above 0 both checks are skipped and the call goes straight to the fetch
    of the transaction set. *)
Theorem validateValue_rejects
    (X : Externals) (app : Application) (slot : Z) (nodeID : NodeID)
    (value : Value) (cb : Callback) (s : Herder) :
  0 <= ledgerSeq (mLastClosedLedger s) < 2 ^ 64 - 1 ->
  (xdr_from_opaque X value = None ->
     validateValue X app slot nodeID value cb s = call cb false s)
  /\ (forall b, xdr_from_opaque X value = Some b ->
        (mLedgersToWaitToParticipate s = 0 ->
         slot <> ledgerSeq (mLastClosedLedger s) + 1
           \/ closeTime (sb_value b) <= lh_closeTime (mLastClosedLedger s) ->
         validateValue X app slot nodeID value cb s = call cb false s)
        /\ (mLedgersToWaitToParticipate s > 0 ->
            validateValue X app slot nodeID value cb s
            = fetch_then_validate app (txSetHash (sb_value b))
                (ValidateValue cb b slot nodeID) s)).
Proof.
  intros Hseq. unfold validateValue. split.
  - intros ->. reflexivity.
  - intros b ->. split.
    + intros -> Hbad. simpl. rewrite wrap64_small by lia.
      destruct (Z.eqb_spec (ledgerSeq (mLastClosedLedger s) + 1) slot) as [E|E]; simpl;
        [|reflexivity].
      destruct (Z.leb_spec (closeTime (sb_value b)) (lh_closeTime (mLastClosedLedger s)));
        [reflexivity|]. lia.
    + intros Hpos.
      destruct (Z.eqb_spec (mLedgersToWaitToParticipate s) 0); [lia | reflexivity].
Qed.

(** On a participating node at ledger 10, a value for slot 12 is refused; on
    a fresh node (sync gate at 3) the same value proceeds to the fetch. *)
Lemma validateValue_rejects_witness :
  validateValue Sample.X (Sample.app 100 SYNCED_STATE) 12 1 [] 7 (Sample.node 10 90 [[]; []; []; []])
  = call 7 false (Sample.node 10 90 [[]; []; []; []])
  /\ validateValue Sample.X (Sample.app 100 SYNCED_STATE) 12 1 [5; 95; 10] 7
       (Sample.node 10 90 [[]; []; []; []])
     = call 7 false (Sample.node 10 90 [[]; []; []; []])
  /\ effects (validateValue Sample.X (Sample.app 100 SYNCED_STATE) 12 1 [5; 95; 10] 7
                (Herder_init (Sample.app 100 SYNCED_STATE)))
     = [EvRequestTxSet 5].
Proof.
  split; [|split].
  - apply (proj1 (validateValue_rejects Sample.X (Sample.app 100 SYNCED_STATE) 12 1 [] 7
                    (Sample.node 10 90 [[]; []; []; []]) ltac:(simpl; lia))).
    reflexivity.
  - apply (proj1 (proj2 (validateValue_rejects Sample.X (Sample.app 100 SYNCED_STATE) 12 1
                           [5; 95; 10] 7 (Sample.node 10 90 [[]; []; []; []])
                           ltac:(simpl; lia)) _ eq_refl)).
    + reflexivity.
    + left. simpl. lia.
  - rewrite (proj2 (proj2 (validateValue_rejects Sample.X (Sample.app 100 SYNCED_STATE) 12 1
                           [5; 95; 10] 7 (Herder_init (Sample.app 100 SYNCED_STATE))
                           ltac:(simpl; lia)) _ eq_refl)).
    + reflexivity.
    + simpl. lia.
Defined.

(** ** The base-fee check *)

Lemma lt_half_spec (x d : Z) : lt_half x d = true <-> 2 * x < d.
Proof.
  unfold lt_half. rewrite negb_true_iff.
  destruct (Qle_bool (inject_Z d * (1 # 2)) (inject_Z x)) eqn:E.
  - apply Qle_bool_iff in E. unfold Qle in E. simpl in E. split; [discriminate | lia].
  - split; [intros _ | reflexivity].
    destruct (Z_lt_le_dec (2 * x) d) as [H|H]; [exact H|].
    assert (Qle_bool (inject_Z d * (1 # 2)) (inject_Z x) = true) as E'.
    { apply Qle_bool_iff. unfold Qle. simpl. lia. }
    congruence.
Qed.

Lemma baseFee_rejects_spec (app : Application) (fee : Z) :
  baseFee_rejects app fee = true
  <-> 2 * fee < DESIRED_BASE_FEE app \/ DESIRED_BASE_FEE app * 2 < fee.
Proof.
  unfold baseFee_rejects.
  destruct (lt_half fee (DESIRED_BASE_FEE app)) eqn:E.
  - apply lt_half_spec in E. tauto.
  - assert (~ 2 * fee < DESIRED_BASE_FEE app) as Hn.
    { intros H. apply lt_half_spec in H. congruence. }
    destruct (Z.gtb_spec fee (DESIRED_BASE_FEE app * 2)); split; intros; try lia;
      try reflexivity; try discriminate.
Qed.

(** C8.  The base-fee check of [validateBallot] rejects exactly the fees
    outside the interval from half the desired base fee to twice the desired
    base fee; a decoded ballot that has passed the checks on times gets
    [cb(false)] from it on such a fee and goes on to the fetch otherwise.
    The ceiling of half the desired fee passes; the floor of half the desired
    fee, less one, is rejected. *)
Theorem validateBallot_baseFee_interval
    (X : Externals) (app : Application) (slot : Z) (nodeID : NodeID)
    (ballot : FBABallot) (cb : Callback) (s : Herder) (b : StellarBallot) :
  0 <= DESIRED_BASE_FEE app ->
  DESIRED_BASE_FEE app * 2 < 2 ^ 31 ->
  (baseFee_rejects app (baseFee (sb_value b)) = true
   <-> ~ ((1 # 2) * inject_Z (DESIRED_BASE_FEE app) <= inject_Z (baseFee (sb_value b))
          /\ inject_Z (baseFee (sb_value b)) <= inject_Z 2 * inject_Z (DESIRED_BASE_FEE app))%Q)
  /\ (xdr_from_opaque X (fb_value ballot) = Some b ->
      validateBallot_times X app ballot b s = Some true ->
      validateBallot X app slot nodeID ballot cb s
      = if baseFee_rejects app (baseFee (sb_value b))
        then Some (call cb false s)
        else Some (fetch_then_validate app (txSetHash (sb_value b))
                     (ValidateBallot cb b slot nodeID) s))
  /\ (forall c, (inject_Z c - 1 < (1 # 2) * inject_Z (DESIRED_BASE_FEE app)
                 /\ (1 # 2) * inject_Z (DESIRED_BASE_FEE app) <= inject_Z c)%Q ->
        baseFee_rejects app c = false)
  /\ (forall f, (inject_Z f <= (1 # 2) * inject_Z (DESIRED_BASE_FEE app)
                 /\ (1 # 2) * inject_Z (DESIRED_BASE_FEE app) < inject_Z f + 1)%Q ->
        baseFee_rejects app (f - 1) = true).
Proof.
  intros HD0 HD1. repeat split.
  - intros H [H1 H2]. apply baseFee_rejects_spec in H.
    unfold Qle in H1, H2. simpl in H1, H2. lia.
  - intros H. apply baseFee_rejects_spec.
    destruct (Z_lt_le_dec (2 * baseFee (sb_value b)) (DESIRED_BASE_FEE app)); [tauto|].
    destruct (Z_lt_le_dec (DESIRED_BASE_FEE app * 2) (baseFee (sb_value b))); [tauto|].
    exfalso. apply H. unfold Qle. simpl. lia.
  - intros Hdec Htimes. unfold validateBallot, validateBallot_local.
    rewrite Hdec, Htimes. destruct (baseFee_rejects app (baseFee (sb_value b))); reflexivity.
  - intros c [H1 H2]. unfold Qle in H2. unfold Qlt in H1. simpl in H1, H2.
    destruct (baseFee_rejects app c) eqn:E; [|reflexivity].
    apply baseFee_rejects_spec in E. lia.
  - intros f [H1 H2]. unfold Qle in H1. unfold Qlt in H2. simpl in H1, H2.
    apply baseFee_rejects_spec. lia.
Qed.

(** The fee 4 is below half of the desired fee 10 and is rejected; 5 is the
    ceiling of the half and passes. *)
Lemma validateBallot_baseFee_interval_witness :
  validateBallot Sample.X (Sample.app 100 SYNCED_STATE) 11 1 (mkFBABallot 0 [5; 95; 4]) 7
    (Sample.node 10 90 [[]; []; []; []])
  = Some (call 7 false (Sample.node 10 90 [[]; []; []; []]))
  /\ baseFee_rejects (Sample.app 100 SYNCED_STATE) 5 = false
  /\ baseFee_rejects (Sample.app 100 SYNCED_STATE) (5 - 1) = true.
Proof.
  pose proof (validateBallot_baseFee_interval Sample.X (Sample.app 100 SYNCED_STATE) 11 1
                (mkFBABallot 0 [5; 95; 4]) 7 (Sample.node 10 90 [[]; []; []; []])
                (mkStellarBallot (mkStellarBallotValue 5 95 4))
                ltac:(simpl; lia) ltac:(simpl; lia)) as [_ [H2 [H3 H4]]].
  split; [|split].
  - rewrite (H2 eq_refl eq_refl). reflexivity.
  - apply H3. split; reflexivity || discriminate.
  - apply H4. split; reflexivity || discriminate.
Defined.

(** ** The closure of [validateBallot] *)


Lemma run_validate_call (app : Application) (T : TxSetFrame) (v : Validate) (s : Herder) :
  run_validate app T v s = call (Validate_cb v) (Validate_result app T s v) s.
Proof.
  destruct v; simpl.
  - destruct ((mLedgersToWaitToParticipate s =? 0) && negb (txSet_checkValid app T));
      reflexivity.
  - destruct (missing_received_tx T (oldest_bucket s)); reflexivity.
Qed.

Lemma fetchTxSet_cached (h : Hash) (ask : bool) (s : Herder) (T : TxSetFrame) :
  cached_TxSet s h = Some T -> fetchTxSet h ask s = (Some T, s).
Proof.
  unfold cached_TxSet, fetchTxSet, TxSetFetcher.fetchItem. intros ->.
  rewrite set_fetcher_at_same, emit_nil. unfold set_mTxSetFetcher.
  rewrite Herder_eta. reflexivity.
Qed.



(** The comparison is one of pointers: a set that holds another object with
    the full hash of the old transaction does not hold the old transaction. *)
Lemma validateBallot_same_hash_other_object :
  let T := mkTxSetFrame [Sample.tx 2 30] 7 in
  let s := Sample.caching T (Sample.node 10 90 [[]; []; []; [Sample.tx 1 30]]) in
  validateBallot Sample.X (Sample.app 100 SYNCED_STATE) 11 1
    (mkFBABallot 0 [7030; 95; 10]) 7 s = Some (call 7 false s).
Proof. reflexivity. Qed.

(** ** Fetch, then validate *)


Lemma fold_recvTransaction_frame (app : Application) (txs : list TransactionFramePtr)
    (s : Herder) :
  fold_left (fun s tx => snd (recvTransaction app tx s)) txs s
  = set_mReceivedTransactions
      (mReceivedTransactions (fold_left (fun s tx => snd (recvTransaction app tx s)) txs s)) s.
Proof.
  revert s. induction txs as [|tx rest IH]; intros s; simpl.
  - unfold set_mReceivedTransactions. symmetry. apply Herder_eta.
  - rewrite IH at 1. rewrite (recvTransaction_frame app tx s) at 2. reflexivity.
Qed.

Lemma fold_run_validate (app : Application) (T : TxSetFrame) (vs : list Validate) (s : Herder) :
  fold_left (fun s v => run_validate app T v s) vs s
  = emit (map (fun v => EvCallback (Validate_cb v) (Validate_result app T s v)) vs) s.
Proof.
  revert s. induction vs as [|v rest IH]; intros s; simpl.
  - symmetry. apply emit_nil.
  - rewrite IH, run_validate_call. unfold call. rewrite emit_emit. simpl.
    rewrite (map_ext _ (fun v0 => EvCallback (Validate_cb v0) (Validate_result app T s v0)));
      [reflexivity|].
    intros v'. reflexivity.
Qed.






(** ** Proposing a value *)

Lemma fetchTxSet_shape (h : Hash) (ask : bool) (s : Herder) :
  exists fs evs,
    snd (fetchTxSet h ask s) = emit evs (set_mTxSetFetcher fs s)
    /\ existsb is_EvPrepareValue evs = false.
Proof.
  unfold fetchTxSet, TxSetFetcher.fetchItem.
  destruct (TxSetFetcher.cached (fetcher_at (mCurrentTxSetFetcher s) (mTxSetFetcher s)) !! h);
    [|destruct ask]; simpl; eexists; eexists; split; reflexivity.
Qed.

Lemma callbacks_no_prepare (f : Validate -> bool) (vs : list Validate) :
  existsb is_EvPrepareValue (map (fun v => EvCallback (Validate_cb v) (f v)) vs) = false.
Proof. induction vs as [|v rest IH]; simpl; [reflexivity | exact IH]. Qed.

Lemma recvTxSet_shape (X : Externals) (app : Application) (T : TxSetFrame) (s : Herder) :
  exists bs fs ms evs,
    recvTxSet X app T s
    = emit evs (set_mTxSetFetches ms (set_mReceivedTransactions bs (set_mTxSetFetcher fs s)))
    /\ existsb is_EvPrepareValue evs = false.
Proof.
  unfold recvTxSet, TxSetFetcher.recvItem.
  destruct (bool_decide _).
  - rewrite fold_recvTransaction_frame. simpl.
    match goal with |- context [?m !! ?k] => destruct (m !! k) as [vs|] end.
    + rewrite fold_run_validate. do 4 eexists. split; [herder_fields; reflexivity|].
      apply callbacks_no_prepare.
    + exists (mReceivedTransactions
                (fold_left (fun s tx => snd (recvTransaction app tx s)) (mTransactions T)
                   (set_mTxSetFetcher
                      (set_fetcher_at (mCurrentTxSetFetcher s)
                         {| TxSetFetcher.cached :=
                              <[getContentsHash X T:=T]>
                                (TxSetFetcher.cached
                                   (fetcher_at (mCurrentTxSetFetcher s) (mTxSetFetcher s)));
                            TxSetFetcher.outstanding :=
                              TxSetFetcher.outstanding
                                (fetcher_at (mCurrentTxSetFetcher s) (mTxSetFetcher s))
                              ∖ {[getContentsHash X T]} |}
                         (mTxSetFetcher s)) s))).
      eexists. exists (mTxSetFetches s), []. split; [|reflexivity].
      unfold emit. simpl. rewrite app_nil_r. reflexivity.
  - eexists (mReceivedTransactions s). eexists. exists (mTxSetFetches s), [].
    split; [|reflexivity]. unfold emit. simpl. rewrite app_nil_r. reflexivity.
Qed.

Lemma recvFBAEnvelope_shape (X : Externals) (e : FBAEnvelope) (cb : Callback) (s : Herder) :
  exists fut evs,
    recvFBAEnvelope X e cb s = emit evs (set_mFutureEnvelopes fut s)
    /\ existsb is_EvPrepareValue evs = false.
Proof.
  unfold recvFBAEnvelope, receiveEnvelope, push_back_future.
  repeat match goal with
         | |- context [if ?c then _ else _] => destruct c
         end;
    try (eexists; exists [EvReceiveEnvelope e cb]; split; reflexivity).
  all: exists (mFutureEnvelopes s), []; split; [|reflexivity].
  all: unfold emit, set_mFutureEnvelopes; simpl; rewrite app_nil_r; symmetry;
    apply Herder_eta.
Qed.

Lemma replay_shape (X : Externals) (ps : list (FBAEnvelope * Callback)) (s : Herder) :
  exists fut evs,
    fold_left (fun s p => recvFBAEnvelope X (fst p) (snd p) s) ps s
    = emit evs (set_mFutureEnvelopes fut s)
    /\ existsb is_EvPrepareValue evs = false.
Proof.
  revert s. induction ps as [|[e cb] rest IH]; intros s; simpl.
  - exists (mFutureEnvelopes s), []. split; [|reflexivity].
    unfold emit, set_mFutureEnvelopes; simpl. rewrite app_nil_r. symmetry. apply Herder_eta.
  - destruct (recvFBAEnvelope_shape X e cb s) as (fut1 & evs1 & -> & H1).
    destruct (IH (emit evs1 (set_mFutureEnvelopes fut1 s))) as (fut2 & evs2 & -> & H2).
    exists fut2, (evs1 ++ evs2). split.
    + unfold emit, set_mFutureEnvelopes. simpl. rewrite app_assoc. reflexivity.
    + rewrite existsb_app, H1, H2. reflexivity.
Qed.

(** C9.  Every run of [triggerNextLedger] makes the value whose transaction
    set hash is the contents hash of the set of all received transactions
    on top of the hash of the last closed ledger, whose close time is the
    larger of the trigger time in seconds and the close time of the last
    closed ledger plus one, and whose base fee is the desired base fee; it
    stores the value as the local value and hands it, once, to
    [prepareValue] for the slot after the last closed ledger. *)
Theorem triggerNextLedger_proposes (X : Externals) (app : Application) (s : Herder) :
  0 <= pointToTimeT X (clock_now app) < 2 ^ 64 ->
  0 <= lh_closeTime (mLastClosedLedger s) < 2 ^ 64 - 1 ->
  0 <= ledgerSeq (mLastClosedLedger s) < 2 ^ 64 - 1 ->
  let proposedSet :=
    mkTxSetFrame (concat (mReceivedTransactions s)) (lh_hash (mLastClosedLedger s)) in
  let value :=
    mkStellarBallotValue (getContentsHash X proposedSet)
      (Z.max (pointToTimeT X (clock_now app)) (lh_closeTime (mLastClosedLedger s) + 1))
      (DESIRED_BASE_FEE app) in
  exists s' before after,
    triggerNextLedger X app false s = Some s'
    /\ mLocalValue s' = xdr_to_opaque X (mkStellarBallot value)
    /\ effects s'
       = effects s ++ before
         ++ [EvPrepareValue (ledgerSeq (mLastClosedLedger s) + 1) (mLocalValue s') false]
         ++ after
    /\ existsb is_EvPrepareValue (before ++ after) = false.
Proof.
  intros Hnow Hct Hseq proposedSet value. unfold triggerNextLedger. simpl.
  fold proposedSet.
  destruct (fetchTxSet_shape (getContentsHash X proposedSet) true
              (set_mLastTrigger (clock_now app) s)) as (fs1 & evs1 & E1 & H1).
  destruct (fetchTxSet (getContentsHash X proposedSet) true
              (set_mLastTrigger (clock_now app) s)) as [r s1].
  simpl in E1. subst s1.
  destruct (recvTxSet_shape X app proposedSet
              (emit evs1 (set_mTxSetFetcher fs1 (set_mLastTrigger (clock_now app) s))))
    as (bs & fs2 & ms & evs2 & -> & H2).
  simpl.
  rewrite (wrap64_small (pointToTimeT X (clock_now app))) by lia.
  rewrite (wrap64_small (ledgerSeq (mLastClosedLedger s) + 1)) by lia.
  rewrite (wrap64_small (lh_closeTime (mLastClosedLedger s) + 1)) by lia.
  match goal with
  | |- context [fold_left ?f ?ps ?s0] =>
      destruct (replay_shape X ps s0) as (fut & evs3 & -> & H3)
  end.
  eexists. exists (evs1 ++ evs2), evs3. split; [reflexivity|]. simpl.
  assert ((if pointToTimeT X (clock_now app) <=? lh_closeTime (mLastClosedLedger s)
           then lh_closeTime (mLastClosedLedger s) + 1
           else pointToTimeT X (clock_now app))
          = Z.max (pointToTimeT X (clock_now app)) (lh_closeTime (mLastClosedLedger s) + 1))
    as ->.
  { destruct (Z.leb_spec (pointToTimeT X (clock_now app))
                (lh_closeTime (mLastClosedLedger s))); lia. }
  split; [reflexivity|]. split.
  - rewrite <- !app_assoc. reflexivity.
  - rewrite !existsb_app, H1, H2, H3. reflexivity.
Qed.

(** A node at ledger 10, closed at time 90, with two received transactions,
    triggered at time 100 and, with a slow clock, at time 80. *)
Lemma triggerNextLedger_proposes_witness :
  let s := Sample.node 10 90 [[Sample.tx 1 30]; []; [Sample.tx 2 40]; []] in
  (exists s' before after,
      triggerNextLedger Sample.X (Sample.app 100 SYNCED_STATE) false s = Some s'
      /\ mLocalValue s' = [7070; 100; 10]
      /\ effects s' = effects s ++ before ++ [EvPrepareValue 11 (mLocalValue s') false] ++ after
      /\ existsb is_EvPrepareValue (before ++ after) = false)
  /\ (exists s' before after,
        triggerNextLedger Sample.X (Sample.app 80 SYNCED_STATE) false s = Some s'
        /\ mLocalValue s' = [7070; 91; 10]
        /\ effects s' = effects s ++ before ++ [EvPrepareValue 11 (mLocalValue s') false] ++ after
        /\ existsb is_EvPrepareValue (before ++ after) = false).
Proof.
  intros s. split.
  - apply (triggerNextLedger_proposes Sample.X (Sample.app 100 SYNCED_STATE) s);
      simpl; lia.
  - apply (triggerNextLedger_proposes Sample.X (Sample.app 80 SYNCED_STATE) s);
      simpl; lia.
Defined.

(** ** Externalization *)

(** The erase of [removeReceivedTx] acts on a copy of the bucket: the
    buckets of the node stay as they are. *)
Lemma removeReceivedTx_unchanged (dropTx : TransactionFramePtr) (s : Herder) :
  removeReceivedTx dropTx s = s.
Proof.
  unfold removeReceivedTx.
  destruct (removeReceivedTx_loop _ _); reflexivity.
Qed.

Lemma fold_removeReceivedTx (txs : list TransactionFramePtr) (s : Herder) :
  fold_left (fun s tx => removeReceivedTx tx s) txs s = s.
Proof.
  induction txs as [|tx rest IH]; simpl; [reflexivity|].
  rewrite removeReceivedTx_unchanged. exact IH.
Qed.

(** The four buckets after the loop: the oldest keeps what it had and takes
    in the bucket below, every other bucket takes the place above, bucket 0
    is empty. *)
Lemma move_up_four (b0 b1 b2 b3 : list TransactionFramePtr) :
  move_up 3 [b0; b1; b2; b3] = [[]; b0; b1; b3 ++ b2].
Proof. reflexivity. Qed.

Lemma fetchTxSet_absent_quiet (h : Hash) (s : Herder) :
  cached_TxSet s h = None -> fetchTxSet h false s = (None, s).
Proof.
  unfold cached_TxSet, fetchTxSet, TxSetFetcher.fetchItem. intros ->.
  rewrite set_fetcher_at_same, emit_nil. unfold set_mTxSetFetcher.
  rewrite Herder_eta. reflexivity.
Qed.

Lemma fetcher_at_other_twice (i : Z) (p : TxSetFetcher.t * TxSetFetcher.t) :
  fetcher_at (other_fetcher (other_fetcher i)) p = fetcher_at i p.
Proof. unfold fetcher_at, other_fetcher. destruct (i =? 0); reflexivity. Qed.

Lemma valueExternalized_found_spec (T : TxSetFrame) (s : Herder) :
  (2 <= length (mReceivedTransactions s))%nat ->
  exists s',
    valueExternalized_found T s = Some s'
    /\ mCurrentTxSetFetcher s' = other_fetcher (mCurrentTxSetFetcher s)
    /\ fetcher_at (mCurrentTxSetFetcher s') (mTxSetFetcher s') = TxSetFetcher.empty
    /\ fetcher_at (other_fetcher (mCurrentTxSetFetcher s')) (mTxSetFetcher s')
       = TxSetFetcher.stopFetchingAll (fetcher_at (mCurrentTxSetFetcher s) (mTxSetFetcher s))
    /\ effects s'
       = effects s ++ [EvExternalizeValue T]
         ++ map EvBroadcastTx (default [] (mReceivedTransactions s !! 1%nat)).
Proof.
  intros Hlen. unfold valueExternalized_found.
  rewrite fold_removeReceivedTx. simpl.
  destruct (Nat.ltb_spec (length (mReceivedTransactions s)) 2); [lia|].
  eexists. split; [reflexivity|]. simpl. repeat split.
  - apply fetcher_at_set.
  - rewrite fetcher_at_set_other, fetcher_at_other_twice. apply fetcher_at_set.
  - rewrite <- app_assoc. reflexivity.
Qed.

(** C7, as the code has it.  [valueExternalized] of a value whose
    transaction set is in the cache stops the fetches of the current buffer,
    makes the other buffer the current one and clears it (the buffer that
    was current, with what it has cached, is the other one from then on),
    and hands the set to the ledger through [externalizeValue]; when the set
    is not in the cache, the error is logged and there is none of these
    effects: the buffers, the index of the current one and the buckets of
    received transactions are as before and the ledger is not called. *)
Theorem valueExternalized_rotates (X : Externals) (slot : Z) (value : Value) (s : Herder) :
  (2 <= length (mReceivedTransactions s))%nat ->
  let b := match xdr_from_opaque X value with
           | Some b => b
           | None => xdr_failed_leaves X value
           end in
  let decode_log := match xdr_from_opaque X value with
                    | Some _ => []
                    | None => [EvLogError Externalized_StellarBallot_malformed]
                    end in
  (forall T, cached_TxSet s (txSetHash (sb_value b)) = Some T ->
     exists s',
       valueExternalized X slot value s = Some s'
       /\ mCurrentTxSetFetcher s' = other_fetcher (mCurrentTxSetFetcher s)
       /\ fetcher_at (mCurrentTxSetFetcher s') (mTxSetFetcher s') = TxSetFetcher.empty
       /\ fetcher_at (other_fetcher (mCurrentTxSetFetcher s')) (mTxSetFetcher s')
          = TxSetFetcher.stopFetchingAll
              (fetcher_at (mCurrentTxSetFetcher s) (mTxSetFetcher s))
       /\ effects s'
          = effects s ++ decode_log ++ [EvExternalizeValue T]
            ++ map EvBroadcastTx (default [] (mReceivedTransactions s !! 1%nat)))
  /\ (cached_TxSet s (txSetHash (sb_value b)) = None ->
      valueExternalized X slot value s
      = Some (emit (decode_log ++ [EvLogError Externalized_txSet_not_found])
                (set_mBumpTimer None s))).
Proof.
  intros Hlen b decode_log. unfold valueExternalized. subst b decode_log.
  destruct (xdr_from_opaque X value) as [b|]; split.
  - intros T Hc.
    rewrite (fetchTxSet_cached _ false (set_mBumpTimer None s) T Hc).
    destruct (valueExternalized_found_spec T (set_mBumpTimer None s) Hlen)
      as (s' & E & H1 & H2 & H3 & H4).
    exists s'. repeat split; assumption.
  - intros Hc.
    rewrite (fetchTxSet_absent_quiet _ (set_mBumpTimer None s) Hc). reflexivity.
  - intros T Hc.
    rewrite (fetchTxSet_cached _ false
               (emit [EvLogError Externalized_StellarBallot_malformed]
                  (set_mBumpTimer None s)) T Hc).
    destruct (valueExternalized_found_spec T
                (emit [EvLogError Externalized_StellarBallot_malformed]
                   (set_mBumpTimer None s)) Hlen)
      as (s' & E & H1 & H2 & H3 & H4).
    exists s'. repeat split; try assumption.
    rewrite H4. simpl. rewrite <- app_assoc. reflexivity.
  - intros Hc.
    rewrite (fetchTxSet_absent_quiet _
               (emit [EvLogError Externalized_StellarBallot_malformed]
                  (set_mBumpTimer None s)) Hc).
    rewrite emit_emit. reflexivity.
Qed.

(** A node that has the set of hash 7030 in its current buffer externalizes
    it; a node that has nothing cached is told to externalize it. *)
Lemma valueExternalized_rotates_witness :
  let T := mkTxSetFrame [Sample.tx 1 30] 7 in
  let s0 := Sample.node 10 90 [[]; [Sample.tx 1 30]; []; []] in
  (exists s',
      valueExternalized Sample.X 11 [7030; 95; 10] (Sample.caching T s0) = Some s'
      /\ mCurrentTxSetFetcher s' = 1
      /\ fetcher_at 1 (mTxSetFetcher s') = TxSetFetcher.empty
      /\ effects s' = [EvExternalizeValue T; EvBroadcastTx (Sample.tx 1 30)])
  /\ valueExternalized Sample.X 11 [7030; 95; 10] s0
     = Some (emit [EvLogError Externalized_txSet_not_found] (set_mBumpTimer None s0)).
Proof.
  intros T s0. split.
  - destruct (proj1 (valueExternalized_rotates Sample.X 11 [7030; 95; 10]
                       (Sample.caching T s0) ltac:(simpl; lia)) T eq_refl)
      as (s' & E & H1 & H2 & _ & H4).
    exists s'. split; [exact E|]. split; [exact H1|]. split; [|exact H4].
    rewrite H1 in H2. exact H2.
  - apply (proj2 (valueExternalized_rotates Sample.X 11 [7030; 95; 10] s0
                    ltac:(simpl; lia))).
    reflexivity.
Defined.

(** C7 as claimed fails: after the rotation the buffer that is now the
    other one still caches the externalized set; the cleared buffer is the
    current one. *)
Lemma valueExternalized_other_buffer_not_cleared :
  let T := mkTxSetFrame [Sample.tx 1 30] 7 in
  let s := Sample.caching T (Sample.node 10 90 [[]; [Sample.tx 1 30]; []; []]) in
  cached_TxSet s 7030 = Some T
  /\ exists s',
       valueExternalized Sample.X 11 [7030; 95; 10] s = Some s'
       /\ TxSetFetcher.cached
            (fetcher_at (other_fetcher (mCurrentTxSetFetcher s')) (mTxSetFetcher s')) !! 7030%N
          = Some T
       /\ fetcher_at (other_fetcher (mCurrentTxSetFetcher s')) (mTxSetFetcher s')
          <> TxSetFetcher.clear
               (fetcher_at (other_fetcher (mCurrentTxSetFetcher s')) (mTxSetFetcher s')).
Proof.
  intros T s. split; [vm_compute; reflexivity|].
  eexists. split; [vm_compute; reflexivity|]. split; [vm_compute; reflexivity|].
  intros H. apply (f_equal (fun f => TxSetFetcher.cached f !! 7030%N)) in H.
  revert H. vm_compute. discriminate.
Qed.

(** ** Ledger close *)




(** The statements below the [return] would lower the gate on the nodes
    that are not SYNCED, and leave it on those that are. *)
Remark ledgerClosed_below_return_gate (app : Application) (ledger : LedgerHeader) (s : Herder) :
  mLedgersToWaitToParticipate s > 0 ->
  mLedgersToWaitToParticipate (ledgerClosed_below_return app ledger s)
  = if AppState_eqb (getState app) SYNCED_STATE
    then mLedgersToWaitToParticipate s
    else mLedgersToWaitToParticipate s - 1.
Proof.
  intros H. unfold ledgerClosed_below_return. simpl.
  destruct (Z.gtb_spec (mLedgersToWaitToParticipate s) 0); [|lia].
  destruct (AppState_eqb (getState app) SYNCED_STATE); reflexivity.
Qed.

(** ** Future envelopes *)

(** An envelope for a slot of the future, within the bracket, on a
    participating node: it is put in the buffer and, the function going on
    to its last statement, it is given to the slot machine in the same
    call. *)
Lemma recvFBAEnvelope_future_buffered_and_received
    (X : Externals) (e : FBAEnvelope) (cb : Callback) (s : Herder) :
  mLedgersToWaitToParticipate s = 0 ->
  0 <= LEDGER_VALIDITY_BRACKET X < 2 ^ 31 ->
  0 <= ledgerSeq (mLastClosedLedger s) ->
  ledgerSeq (mLastClosedLedger s) + LEDGER_VALIDITY_BRACKET X < 2 ^ 31 ->
  ledgerSeq (mLastClosedLedger s) + 1 < slotIndex e ->
  slotIndex e <= ledgerSeq (mLastClosedLedger s) + LEDGER_VALIDITY_BRACKET X ->
  effects (recvFBAEnvelope X e cb s) = effects s ++ [EvReceiveEnvelope e cb]
  /\ mFutureEnvelopes (recvFBAEnvelope X e cb s) !! slotIndex e
     = Some (default [] (mFutureEnvelopes s !! slotIndex e) ++ [(e, cb)]).
Proof.
  intros Hgate HB Hseq Hmax Hlo Hhi. unfold recvFBAEnvelope. rewrite Hgate. simpl.
  assert (to_int (ledgerSeq (mLastClosedLedger s)) = ledgerSeq (mLastClosedLedger s)) as ->.
  { unfold to_int. rewrite Z.mod_small by lia. lia. }
  rewrite (wrap64_small (ledgerSeq (mLastClosedLedger s) + LEDGER_VALIDITY_BRACKET X)) by lia.
  rewrite (wrap64_small (ledgerSeq (mLastClosedLedger s) + 1)) by lia.
  assert ((slotIndex e >? ledgerSeq (mLastClosedLedger s) + LEDGER_VALIDITY_BRACKET X) = false)
    as -> by (rewrite Z.gtb_ltb; apply Z.ltb_ge; lia).
  assert ((slotIndex e >? ledgerSeq (mLastClosedLedger s) + 1) = true)
    as -> by (rewrite Z.gtb_ltb; apply Z.ltb_lt; lia).
  assert ((slotIndex e
           <? (if ledgerSeq (mLastClosedLedger s) - LEDGER_VALIDITY_BRACKET X <? 0
               then 0
               else wrap64 (ledgerSeq (mLastClosedLedger s) - LEDGER_VALIDITY_BRACKET X)))
          = false) as ->.
  { apply Z.ltb_ge.
    destruct (Z.ltb_spec (ledgerSeq (mLastClosedLedger s) - LEDGER_VALIDITY_BRACKET X) 0);
      [lia|]. rewrite wrap64_small by lia. lia. }
  simpl. split; [reflexivity|]. apply lookup_insert_eq.
Qed.

(** C2, the run that departs from the claim.  A node bootstrapped on a
    ledger whose last closed ledger is 10 participates; it receives an
    envelope for slot 12: the envelope is buffered and, in the same call,
    given to the slot machine.  Once the last closed ledger is 11,
    [triggerNextLedger] for slot 12 gives it to the slot machine again and
    drops the bucket: the slot machine has received the envelope twice. *)
Theorem recvFBAEnvelope_future_envelope_received_twice :
  let e := mkFBAEnvelope 12 99 in
  let app10 := Sample.app_at (mkLedgerHeader 7 10 90) 100 SYNCED_STATE in
  exists s0,
    bootstrap Sample.X app10 (Herder_init app10) = Some s0
    /\ mLedgersToWaitToParticipate s0 = 0
    /\ ledgerSeq (mLastClosedLedger s0) = 10
    /\ let s1 := recvFBAEnvelope Sample.X e 5 s0 in
       let s2 := set_mLastClosedLedger (mkLedgerHeader 8 11 95) s1 in
       mFutureEnvelopes s1 !! 12 = Some [(e, 5%N)]
       /\ effects s1 = effects s0 ++ [EvReceiveEnvelope e 5]
       /\ exists s3,
            triggerNextLedger Sample.X (Sample.app 105 SYNCED_STATE) false s2 = Some s3
            /\ filter (fun ev => is_EvReceiveEnvelope ev = true) (effects s3)
               = [EvReceiveEnvelope e 5; EvReceiveEnvelope e 5]
            /\ mFutureEnvelopes s3 !! 12 = None.
Proof.
  intros e app10. eexists. split; [vm_compute; reflexivity|].
  split; [vm_compute; reflexivity|]. split; [vm_compute; reflexivity|].
  intros s1 s2.
  split; [vm_compute; reflexivity|]. split; [vm_compute; reflexivity|].
  eexists. split; [vm_compute; reflexivity|]. split; vm_compute; reflexivity.
Qed.

(** ** The ballot counter and the clock *)

Lemma Sigma_nat_bounds (M : Z) (k : nat) :
  0 <= M -> 0 <= Sigma_nat M k < 2 ^ Z.of_nat k.
Proof.
  intros HM. induction k as [|k IH].
  - simpl. lia.
  - change (Sigma_nat M (S k)) with (Sigma_nat M k + Z.min M (2 ^ Z.of_nat k)).
    rewrite Nat2Z.inj_succ, Z.pow_succ_r by lia.
    assert (0 < 2 ^ Z.of_nat k) by (apply Z.pow_pos_nonneg; lia). lia.
Qed.

(** While the powers of two fit an [int], the loop of the code adds up the
    sum of the specification. *)
Lemma sumTimeouts_from_Sigma (X : Externals) (n i : nat) :
  0 <= MAX_FBA_TIMEOUT_SECONDS X ->
  (i + n <= 31)%nat ->
  sumTimeouts_from X (Z.of_nat i) n (Sigma_nat (MAX_FBA_TIMEOUT_SECONDS X) i)
  = Some (Sigma_nat (MAX_FBA_TIMEOUT_SECONDS X) (i + n)).
Proof.
  intros HM. revert i. induction n as [|n IH]; intros i Hin; simpl.
  - rewrite Nat.add_0_r. reflexivity.
  - unfold int_pow2. destruct (Z.ltb_spec (Z.of_nat i) 31); [|lia].
    assert (0 < 2 ^ Z.of_nat i) by (apply Z.pow_pos_nonneg; lia).
    assert (2 ^ Z.of_nat i <= 2 ^ 31) by (apply Z.pow_le_mono_r; lia).
    pose proof (Sigma_nat_bounds (MAX_FBA_TIMEOUT_SECONDS X) i HM) as Hb.
    assert (2 ^ 31 < 2 ^ 64) by (vm_compute; reflexivity).
    unfold int_to_uint64. rewrite (Z.mod_small (Z.min _ _)) by lia.
    rewrite wrap64_small by lia.
    replace (Z.of_nat i + 1) with (Z.of_nat (S i)) by lia.
    change (Sigma_nat (MAX_FBA_TIMEOUT_SECONDS X) i
            + Z.min (MAX_FBA_TIMEOUT_SECONDS X) (2 ^ Z.of_nat i))
      with (Sigma_nat (MAX_FBA_TIMEOUT_SECONDS X) (S i)).
    rewrite IH by lia. f_equal. f_equal. lia.
Qed.

Lemma sumTimeouts_Sigma (X : Externals) (k : Z) :
  0 <= MAX_FBA_TIMEOUT_SECONDS X ->
  0 <= k <= 31 ->
  sumTimeouts X k = Some (Sigma (MAX_FBA_TIMEOUT_SECONDS X) k).
Proof.
  intros HM Hk. unfold sumTimeouts, Sigma.
  apply (sumTimeouts_from_Sigma X (Z.to_nat k) 0 HM). lia.
Qed.

(** Beyond 31 the loop runs into a power of two that no [int] holds. *)
Lemma sumTimeouts_undefined :
  sumTimeouts Sample.X 32 = None.
Proof. reflexivity. Qed.

(** While the right-hand side of the comparison fits an [int], the guard is
    the inequality of the specification. *)
Lemma counter_guard_below_2_31 (X : Externals) (timeNow lastTrigger sum : Z) :
  0 <= MAX_TIME_SLIP_SECONDS X ->
  0 <= timeNow ->
  timeNow + MAX_TIME_SLIP_SECONDS X < 2 ^ 64 ->
  0 <= lastTrigger + sum < 2 ^ 31 ->
  counter_guard_rejects X timeNow lastTrigger sum = true
  <-> timeNow + MAX_TIME_SLIP_SECONDS X < lastTrigger + sum.
Proof.
  intros Hs Hn Hns Hr. unfold counter_guard_rejects, int_to_uint64.
  assert (2 ^ 31 < 2 ^ 64) by (vm_compute; reflexivity).
  rewrite (wrap64_small (lastTrigger + sum)) by lia.
  assert (to_int (lastTrigger + sum) = lastTrigger + sum) as ->.
  { unfold to_int. rewrite Z.mod_small; [lia|].
    change (2 ^ 32) with (2 ^ 31 + 2 ^ 31). lia. }
  rewrite (Z.mod_small (MAX_TIME_SLIP_SECONDS X)) by lia.
  rewrite (Z.mod_small (lastTrigger + sum)) by lia.
  rewrite wrap64_small by lia. apply Z.ltb_lt.
Qed.

(** C3, the runs that depart from the claim.  With sixty seconds of slip
    and timeouts capped at thirty seconds, [Sigma 6 = 61].  A node is
    bootstrapped, and so triggers its round, at second [2^31 - 1] of the
    clock (19 January 2038, 03:14:07 UTC).  One second later a ballot of
    counter 6 is on the boundary of the guard,
    [now + slip = lastTrigger + Sigma 6], and is to pass; but the sum
    [lastTrigger + Sigma 6], cut to an [int], is negative and widens to a
    number near [2^64]: the guard answers [cb(false)], the close time and
    the base fee of the ballot being in order.  A node bootstrapped at
    second [2^31] refuses, in the same second, a ballot of counter 0.  In
    the other direction, when the sum passes [2^32] its cut is small: a
    ballot of counter 7, which is to be refused right after a trigger,
    passes the guard and all the checks before the fetch. *)
Theorem validateBallot_counter_guard_cut_to_int :
  let X := Sample.X in
  let cb := 7%N in
  (* on the boundary *)
  (exists s,
      bootstrap X (Sample.app 2147483647 SYNCED_STATE)
        (Herder_init (Sample.app 2147483647 SYNCED_STATE)) = Some s
      /\ pointToTimeT X (mLastTrigger s) = 2147483647
      /\ let app := Sample.app 2147483648 SYNCED_STATE in
         let ballot := mkFBABallot 6 [5; 2147483648; 10] in
         let b := mkStellarBallot (mkStellarBallotValue 5 2147483648 10) in
         xdr_from_opaque X (fb_value ballot) = Some b
         /\ 2147483648 + MAX_TIME_SLIP_SECONDS X
            = 2147483647 + Sigma (MAX_FBA_TIMEOUT_SECONDS X) 6
         /\ sumTimeouts X 6 = Some (Sigma (MAX_FBA_TIMEOUT_SECONDS X) 6)
         /\ closeTime (sb_value b) <= 2147483648 + MAX_TIME_SLIP_SECONDS X
         /\ baseFee_rejects app (baseFee (sb_value b)) = false
         /\ counter_guard_rejects X 2147483648 2147483647 61 = true
         /\ validateBallot_times X app ballot b s = Some false
         /\ validateBallot X app 11 1 ballot cb s = Some (call cb false s))
  (* a ballot of counter 0 in the second of the trigger *)
  /\ (exists s,
        bootstrap X (Sample.app 2147483648 SYNCED_STATE)
          (Herder_init (Sample.app 2147483648 SYNCED_STATE)) = Some s
        /\ let app := Sample.app 2147483648 SYNCED_STATE in
           let ballot := mkFBABallot 0 [5; 2147483648; 10] in
           2147483648 + MAX_TIME_SLIP_SECONDS X
             >= 2147483648 + Sigma (MAX_FBA_TIMEOUT_SECONDS X) 0
           /\ counter_guard_rejects X 2147483648 2147483648 0 = true
           /\ validateBallot X app 11 1 ballot cb s = Some (call cb false s))
  (* a ballot that is ahead of the timeouts *)
  /\ (exists s,
        bootstrap X (Sample.app 4294967246 SYNCED_STATE)
          (Herder_init (Sample.app 4294967246 SYNCED_STATE)) = Some s
        /\ let app := Sample.app 4294967246 SYNCED_STATE in
           let ballot := mkFBABallot 7 [5; 4294967246; 10] in
           4294967246 + MAX_TIME_SLIP_SECONDS X
             < 4294967246 + Sigma (MAX_FBA_TIMEOUT_SECONDS X) 7
           /\ counter_guard_rejects X 4294967246 4294967246 91 = false
           /\ validateBallot_local X app ballot
                (mkStellarBallot (mkStellarBallotValue 5 4294967246 10)) s = Some true).
Proof.
  intros X cb. split; [|split].
  - eexists. split; [vm_compute; reflexivity|].
    repeat split; vm_compute; reflexivity || (intros H; discriminate H).
  - eexists. split; [vm_compute; reflexivity|].
    repeat split; vm_compute; reflexivity || (intros H; discriminate H).
  - eexists. split; [vm_compute; reflexivity|].
    repeat split; vm_compute; reflexivity || (intros H; discriminate H).
Qed.
